(** * The F5 VirtualServer source of external-dns

    A shallow embedding of [source/f5_virtualserver.go]: the adapter that
    lists the cached F5 VirtualServer objects, converts them to their typed
    shape, filters them by annotation and derives DNS endpoint records.

    Go strings are byte strings and are modelled by [string]; a
    [map[string]string] is a [gmap string string]; Go's [(value, error)]
    returns are modelled by [result]; the log written through logrus and the
    informer cache read by the lister form the [World] threaded through the
    calls. *)

From Stdlib Require Import Ascii NArith ZArith.
From stdpp Require Import base decidable option list strings gmap sorting.


(** ** Errors and fallible results *)

(** Go's [error] values: [errors.New] builds a leaf, [fmt.Errorf] with the
    [%w] verb builds a node that keeps the wrapped error. *)
Inductive error : Type :=
  | errorString (s : string)
  | wrapError (msg : string) (err : error).

Definition errors_New (text : string) : error := errorString text.

(** [err.Error()] *)
Definition Error (e : error) : string :=
  match e with
  | errorString s => s
  | wrapError msg _ => msg
  end.

(** [fmt.Errorf(prefix + "%w", err)] *)
Definition fmt_Errorf_w (prefix : string) (err : error) : error :=
  wrapError (prefix +:+ Error err) err.

(** A Go return [(A, error)] in which exactly one side is meaningful. *)
Inductive result (A : Type) : Type :=
  | Ok (a : A)
  | Err (e : error).
Arguments Ok {A} a.
Arguments Err {A} e.

Definition isErr {A} (r : result A) : bool :=
  match r with Ok _ => false | Err _ => true end.

Definition bind {A B} (r : result A) (k : A -> result B) : result B :=
  match r with
  | Ok a => k a
  | Err e => Err e
  end.

Notation "x <- r ;; k" := (bind r (fun x => k))
  (at level 100, r at next level, right associativity, only parsing).

(** ** Data *)

(** Modelled from the spec: the types [endpoint.Targets], [endpoint.TTL] and
    [endpoint.ProviderSpecific] of the endpoint package; the spec's data
    model has an ordered sequence of target addresses and an optional TTL
    whose absence means "use the provider default". *)
Abbreviation endpoint_Targets := (list string).
Abbreviation endpoint_TTL := (option Z).
Abbreviation endpoint_ProviderSpecific := (list (string * string)).

(** Modelled from the spec: the [endpoint.Endpoint] struct, which lives in
    the endpoint package; its fields are those of the spec's EndpointRecord
    (dnsName, record kind, targets, optional TTL, provenance tag, label
    set). *)
Record Endpoint : Type := {
  DNSName : string;
  Targets : endpoint_Targets;
  RecordType : string;
  RecordTTL : endpoint_TTL;
  Resource : string;
  Labels : gmap string string;
}.

(** The fields of [f5.VirtualServer] the source reads. *)
Record VirtualServerSpec : Type := {
  Host : string;
  VirtualServerAddress : string;
}.

Record VirtualServerStatus : Type := {
  VSAddress : string;
}.

Record VirtualServer : Type := {
  Namespace : string;
  Name : string;
  Annotations : gmap string string;
  Spec : VirtualServerSpec;
  Status : VirtualServerStatus;
}.

(** logrus output: only the level and the formatted message are kept. *)
Inductive Level : Type := DebugLevel | WarnLevel.

Record LogEntry : Type := {
  level : Level;
  message : string;
}.

(** ** Library functions *)

(** [strings.ToLower] on the bytes of a string: the upper-case ASCII letters
    are mapped to lower case, every other byte is kept.  Go also lower-cases
    non-ASCII runes; no such rune lower-cases to an ASCII letter of "none" or
    to nothing, so the comparisons made by [hasValidVirtualServerIP] are the
    same. *)
Definition toLowerByte (c : ascii) : ascii :=
  let n := N_of_ascii c in
  if ((65 <=? n) && (n <=? 90))%N then ascii_of_N (n + 32) else c.

Fixpoint ToLower (s : string) : string :=
  match s with
  | EmptyString => EmptyString
  | String c rest => String (toLowerByte c) (ToLower rest)
  end.

(** ** Collaborators

    The packages the source calls into.  [labels.Selector] is an interface of
    the Kubernetes API machinery; the [annotations] helpers,
    [EndpointsForHostname] and the conversion scheme are defined outside the
    embedded file.  The source is embedded over any implementation of
    them.  A helper is modelled by the value it returns; what a helper may
    write to the log on its own is not modelled, so [logged] below holds the
    entries written by the source itself. *)
Class Collaborators : Type := {
  (** [*unstructured.Unstructured] *)
  Unstructured : Type;
  (** [labels.Selector] with its [Empty] and [Matches] methods *)
  Selector : Type;
  Selector_Empty : Selector -> bool;
  Selector_Matches : Selector -> gmap string string -> bool;
  (** [annotations.ParseFilter] *)
  ParseFilter : string -> result Selector;
  (** [annotations.TTLFromAnnotations] *)
  TTLFromAnnotations : gmap string string -> string -> endpoint_TTL;
  (** [annotations.TargetsFromTargetAnnotation] *)
  TargetsFromTargetAnnotation : gmap string string -> endpoint_Targets;
  (** [EndpointsForHostname] *)
  EndpointsForHostname :
    string -> endpoint_Targets -> endpoint_TTL -> endpoint_ProviderSpecific ->
    string -> string -> list Endpoint;
  (** [unstructuredConverter.scheme.Convert] into a [*f5.VirtualServer] *)
  scheme_Convert : Unstructured -> result VirtualServer;
}.

(** ** The source *)

Section Source.
Context `{Collaborators}.

(** What the informer's lister holds: objects of the expected dynamic type
    [*unstructured.Unstructured], or of any other runtime type. *)
Inductive RuntimeObject : Type :=
  | UnstructuredObject (u : Unstructured)
  | OtherObject (typeName : string).

(** The state outside the adapter: what
    [Lister().ByNamespace(ns).List(labels.Everything())] returns right now
    for each namespace, and the log written so far. *)
Record World : Type := {
  informerCache : string -> result (list RuntimeObject);
  logged : list LogEntry;
}.

Definition log_Warnf (msg : string) (w : World) : World :=
  {| informerCache := informerCache w;
     logged := logged w ++ [{| level := WarnLevel; message := msg |}] |}.

(** [f5VirtualServerSource].  The two clients, the informer and the converter
    are handles on the [World] and on [scheme_Convert]; the fields that carry
    data are the namespace and the filter expression. *)
Record f5VirtualServerSource : Type := {
  annotationFilter : string;
  namespace : string;
}.

(** What construction observes of the cluster: the outcome of
    [informers.WaitForDynamicCacheSync] and of [scheme.AddToScheme]
    ([None] is Go's nil error). *)
Record Startup : Type := {
  WaitForDynamicCacheSync : option error;
  AddToScheme : option error;
}.

Definition newVSUnstructuredConverter (env : Startup) : result unit :=
  match AddToScheme env with
  | Some err => Err err
  | None => Ok tt
  end.

Definition NewF5VirtualServerSource
    (env : Startup) (namespace annotationFilter : string)
    : result f5VirtualServerSource :=
  match WaitForDynamicCacheSync env with
  | Some err => Err err
  | None =>
      match newVSUnstructuredConverter env with
      | Err err => Err (fmt_Errorf_w "failed to setup unstructured converter: " err)
      | Ok _ =>
          Ok {| namespace := namespace; annotationFilter := annotationFilter |}
      end
  end.

Definition hasValidVirtualServerIP (vs : VirtualServer) : bool :=
  let normalizedAddress := ToLower (VSAddress (Status vs)) in
  bool_decide (normalizedAddress ≠ "none") && bool_decide (normalizedAddress ≠ "").

(** [filterByAnnotations]: the loop appends each matching object to
    [filteredList]. *)
Definition filterByAnnotations
    (vs : f5VirtualServerSource) (virtualServers : list VirtualServer)
    : result (list VirtualServer) :=
  selector <- ParseFilter (annotationFilter vs) ;;
  if Selector_Empty selector then Ok virtualServers
  else
    Ok (fold_left
          (fun filteredList vs =>
             if Selector_Matches selector (Annotations vs)
             then filteredList ++ [vs]
             else filteredList)
          virtualServers []).

(** Lines 162-169 of [endpointsFromVirtualServers]: the targets handed to
    [EndpointsForHostname]. *)
Definition resolveTargets (virtualServer : VirtualServer) : endpoint_Targets :=
  let targets := TargetsFromTargetAnnotation (Annotations virtualServer) in
  let targets :=
    if bool_decide (length targets = 0)
       && bool_decide (VirtualServerAddress (Spec virtualServer) ≠ "")
    then targets ++ [VirtualServerAddress (Spec virtualServer)]
    else targets in
  let targets :=
    if bool_decide (length targets = 0)
       && bool_decide (VSAddress (Status virtualServer) ≠ "")
    then targets ++ [VSAddress (Status virtualServer)]
    else targets in
  targets.

Definition resourceOf (virtualServer : VirtualServer) : string :=
  "f5-virtualserver/" +:+ Namespace virtualServer +:+ "/" +:+ Name virtualServer.

Definition skipMessage (virtualServer : VirtualServer) : string :=
  "F5 VirtualServer " +:+ Namespace virtualServer +:+ "/" +:+ Name virtualServer
  +:+ " is missing a valid IP address, skipping endpoint creation.".

(** One iteration of the loop of [endpointsFromVirtualServers], on the
    endpoints collected so far and the world. *)
Definition endpointsStep
    (acc : list Endpoint * World) (virtualServer : VirtualServer)
    : list Endpoint * World :=
  let '(endpoints, w) := acc in
  if negb (hasValidVirtualServerIP virtualServer) then
    (endpoints, log_Warnf (skipMessage virtualServer) w)
  else
    let resource := resourceOf virtualServer in
    let ttl := TTLFromAnnotations (Annotations virtualServer) resource in
    let targets := resolveTargets virtualServer in
    (endpoints ++
       EndpointsForHostname (Host (Spec virtualServer)) targets ttl [] "" resource,
     w).

Definition endpointsFromVirtualServers
    (vs : f5VirtualServerSource) (virtualServers : list VirtualServer) (w : World)
    : result (list Endpoint) * World :=
  let '(endpoints, w') := fold_left endpointsStep virtualServers ([], w) in
  (Ok endpoints, w').

(** The body of the conversion loop of [Endpoints]: the type assertion to
    [*unstructured.Unstructured], then the scheme conversion. *)
Definition convertObject (vsObj : RuntimeObject) : result VirtualServer :=
  match vsObj with
  | OtherObject _ => Err (errors_New "could not convert")
  | UnstructuredObject unstructuredHost => scheme_Convert unstructuredHost
  end.

(** The conversion loop of [Endpoints], on the objects still to convert and
    the [virtualServers] collected so far; the first failure returns. *)
Fixpoint convertObjects
    (virtualServerObjects : list RuntimeObject) (virtualServers : list VirtualServer)
    : result (list VirtualServer) :=
  match virtualServerObjects with
  | [] => Ok virtualServers
  | vsObj :: rest =>
      virtualServer <- convertObject vsObj ;;
      convertObjects rest (virtualServers ++ [virtualServer])
  end.

(** Modelled from the spec: the order applied by [sort.Sort(ep.Targets)],
    which is the [Less] method of [endpoint.Targets] in the endpoint package;
    the spec sorts "lexicographic on the address string".  Go's [sort.Sort]
    leaves a permutation sorted for [Less]; for this order there is only one
    (see [sortTargets_unique]). *)
Definition sortTargets (ep : Endpoint) : Endpoint :=
  {| DNSName := DNSName ep;
     Targets := merge_sort String.le (Targets ep);
     RecordType := RecordType ep;
     RecordTTL := RecordTTL ep;
     Resource := Resource ep;
     Labels := Labels ep |}.

Definition Endpoints (vs : f5VirtualServerSource) (w : World)
    : result (list Endpoint) * World :=
  match informerCache w (namespace vs) with
  | Err err => (Err err, w)
  | Ok virtualServerObjects =>
      match convertObjects virtualServerObjects [] with
      | Err err => (Err err, w)
      | Ok virtualServers =>
          match filterByAnnotations vs virtualServers with
          | Err err => (Err (fmt_Errorf_w "failed to filter VirtualServers: " err), w)
          | Ok virtualServers =>
              match endpointsFromVirtualServers vs virtualServers w with
              | (Err err, w') => (Err err, w')
              | (Ok endpoints, w') => (Ok (map sortTargets endpoints), w')
              end
          end
      end
  end.

(** *** Reading aids

    Closed forms of the loops, used to state and prove the properties. *)

(** What one object adds to the endpoints of [endpointsFromVirtualServers]. *)
Definition objectEndpoints (virtualServer : VirtualServer) : list Endpoint :=
  if hasValidVirtualServerIP virtualServer then
    EndpointsForHostname (Host (Spec virtualServer)) (resolveTargets virtualServer)
      (TTLFromAnnotations (Annotations virtualServer) (resourceOf virtualServer))
      [] "" (resourceOf virtualServer)
  else [].

(** What one object adds to the log. *)
Definition objectWarnings (virtualServer : VirtualServer) : list LogEntry :=
  if hasValidVirtualServerIP virtualServer then []
  else [{| level := WarnLevel; message := skipMessage virtualServer |}].

Definition appendLog (w : World) (entries : list LogEntry) : World :=
  {| informerCache := informerCache w; logged := logged w ++ entries |}.

(** The result of [Endpoints] as a function of the listing alone. *)
Definition endpointsOf
    (vs : f5VirtualServerSource) (listing : result (list RuntimeObject))
    : result (list Endpoint) :=
  virtualServerObjects <- listing ;;
  virtualServers <- convertObjects virtualServerObjects [] ;;
  match filterByAnnotations vs virtualServers with
  | Err err => Err (fmt_Errorf_w "failed to filter VirtualServers: " err)
  | Ok virtualServers =>
      Ok (map sortTargets (flat_map objectEndpoints virtualServers))
  end.

(** The same object with other spec-level and status-level addresses. *)
Definition withAddresses
    (virtualServer : VirtualServer) (specAddress statusAddress : string)
    : VirtualServer :=
  {| Namespace := Namespace virtualServer;
     Name := Name virtualServer;
     Annotations := Annotations virtualServer;
     Spec := {| Host := Host (Spec virtualServer);
                VirtualServerAddress := specAddress |};
     Status := {| VSAddress := statusAddress |} |}.

(** Modelled from the spec: record construction by [EndpointsForHostname],
    defined outside the embedded file, attaches the resolved target list to
    every record it builds. *)
Definition attachesTargets : Prop :=
  ∀ hostname targets ttl providerSpecific setIdentifier resource ep,
    ep ∈ EndpointsForHostname hostname targets ttl providerSpecific
           setIdentifier resource →
    Targets ep = targets.

(** Modelled from the spec: a selector that is [Empty] does not restrict the
    selection: it matches every annotation map. *)
Definition emptyMatchesEverything (selector : Selector) : Prop :=
  Selector_Empty selector = true → ∀ ls, Selector_Matches selector ls = true.

End Source.

(** ** A reference implementation of the collaborators

    Used to run the source on concrete objects. *)
Module SpecModel.

(** [strings.Split] on a one-byte separator. *)
Fixpoint split (sep : ascii) (s : string) : list string :=
  match s with
  | EmptyString => [EmptyString]
  | String c rest =>
      if Ascii.eqb c sep then EmptyString :: split sep rest
      else
        match split sep rest with
        | [] => [String c EmptyString]
        | piece :: pieces => String c piece :: pieces
        end
  end.

Definition nonEmpty (s : string) : bool := bool_decide (s ≠ "").

(** Modelled from the spec: [annotations.TargetsFromTargetAnnotation], the
    target-override-annotation parser; the spec's scenarios write the
    annotation [target] with comma-separated addresses, and parsing may
    yield an empty list. *)
Definition TargetsFromTargetAnnotation (input : gmap string string) : endpoint_Targets :=
  match input !! "target" with
  | Some targetAnnotation => List.filter nonEmpty (split "," targetAnnotation)
  | None => []
  end.

Fixpoint parseDecimal (s : string) (acc : Z) : option Z :=
  match s with
  | EmptyString => Some acc
  | String c rest =>
      match Ascii.is_nat c with
      | Some d => parseDecimal rest (10 * acc + Z.of_nat d)
      | None => None
      end
  end.

(** Modelled from the spec: [annotations.TTLFromAnnotations], the
    TTL-annotation parser: an explicit TTL if the annotation is present and
    well-formed, otherwise unset. *)
Definition TTLFromAnnotations (input : gmap string string) (resource : string)
    : endpoint_TTL :=
  match input !! "ttl" with
  | Some ttlAnnotation =>
      if nonEmpty ttlAnnotation then parseDecimal ttlAnnotation 0 else None
  | None => None
  end.

(** Modelled from the spec: the selector compiled by
    [annotations.ParseFilter], a predicate over annotation maps; here a
    conjunction of [key=value] requirements, which covers the spec's
    scenarios.  The empty expression compiles to the selector without
    requirements, which matches everything. *)
Definition Requirements : Type := list (string * string).

Definition Empty (s : Requirements) : bool := bool_decide (s = []).

Definition Matches (s : Requirements) (ls : gmap string string) : bool :=
  forallb (fun r => bool_decide (ls !! r.1 = Some r.2)) s.

Definition parseRequirement (piece : string) : result (string * string) :=
  match split "=" piece with
  | [key; value] =>
      if nonEmpty key then Ok (key, value)
      else Err (errors_New ("found '=', expected: identifier: " +:+ piece))
  | _ => Err (errors_New ("couldn't parse the selector string: " +:+ piece))
  end.

Fixpoint parseRequirements (pieces : list string) : result Requirements :=
  match pieces with
  | [] => Ok []
  | piece :: rest =>
      r <- parseRequirement piece ;;
      rs <- parseRequirements rest ;;
      Ok (r :: rs)
  end.

Definition ParseFilter (annotationFilter : string) : result Requirements :=
  if nonEmpty annotationFilter then parseRequirements (split "," annotationFilter)
  else Ok [].

Definition isIPv4Byte (c : ascii) : bool :=
  bool_decide (is_Some (Ascii.is_nat c)) || Ascii.eqb c ".".

Fixpoint allBytes (p : ascii -> bool) (s : string) : bool :=
  match s with
  | EmptyString => true
  | String c rest => p c && allBytes p rest
  end.

Definition suitableType (target : string) : string :=
  if allBytes isIPv4Byte target then "A"
  else if negb (allBytes (fun c => negb (Ascii.eqb c ":")) target) then "AAAA"
  else "CNAME".

(** Modelled from the spec: [EndpointsForHostname], record construction: one
    record for the hostname carrying the resolved target list, the TTL and
    the provenance tag; a record with zero targets is never emitted.  The
    record kind follows the address family of the first target. *)
Definition EndpointsForHostname
    (hostname : string) (targets : endpoint_Targets) (ttl : endpoint_TTL)
    (providerSpecific : endpoint_ProviderSpecific)
    (setIdentifier resource : string) : list Endpoint :=
  match targets with
  | [] => []
  | t :: _ =>
      [ {| DNSName := hostname; Targets := targets; RecordType := suitableType t;
           RecordTTL := ttl; Resource := resource; Labels := ∅ |} ]
  end.

(** Modelled from the spec: the generic cached object and its conversion,
    which fails when the object's shape does not match the schema. *)
Inductive GenericObject : Type :=
  | Shaped (virtualServer : VirtualServer)
  | Misshaped (reason : string).

Definition Convert (obj : GenericObject) : result VirtualServer :=
  match obj with
  | Shaped virtualServer => Ok virtualServer
  | Misshaped reason => Err (errors_New reason)
  end.

#[global] Instance collaborators : Collaborators :=
  Build_Collaborators GenericObject Requirements Empty Matches ParseFilter
    TTLFromAnnotations TargetsFromTargetAnnotation EndpointsForHostname Convert.

(** The objects of the spec's scenarios. *)
Definition vs1 (annotations : gmap string string) (specAddress statusAddress : string)
    : VirtualServer :=
  {| Namespace := "default"; Name := "vs1"; Annotations := annotations;
     Spec := {| Host := "a.example.com"; VirtualServerAddress := specAddress |};
     Status := {| VSAddress := statusAddress |} |}.

(** A cached object of the expected runtime type, and one of another. *)
Definition cached (virtualServer : VirtualServer) : @RuntimeObject collaborators :=
  UnstructuredObject (Shaped virtualServer).

Definition pod : @RuntimeObject collaborators := OtherObject "*v1.Pod".

Definition worldOf (objs : list (@RuntimeObject collaborators)) : @World collaborators :=
  {| informerCache := fun _ => Ok objs; logged := [] |}.

Definition sourceWith (filter : string) : f5VirtualServerSource :=
  {| annotationFilter := filter; namespace := "default" |}.

Definition started : Startup :=
  {| WaitForDynamicCacheSync := None; AddToScheme := None |}.

(** Scenario 1: no annotation, no spec-level address. *)
Definition scenario1 : VirtualServer := vs1 ∅ "" "10.0.0.5".

(** Scenario 2: the status address is "None". *)
Definition scenario2 : VirtualServer := vs1 ∅ "" "None".

(** Scenario 3: a target annotation next to a spec-level address. *)
Definition scenario3 : VirtualServer :=
  vs1 {[ "target" := "5.6.7.8,1.2.3.4" ]} "9.9.9.9" "10.0.0.5".

(** Scenario 4: an object annotated [environment=dev], and one annotated
    [environment=prod]. *)
Definition scenario4 : VirtualServer :=
  vs1 {[ "environment" := "dev" ]} "" "10.0.0.5".

Definition scenario4prod : VirtualServer :=
  vs1 {[ "environment" := "prod" ]} "" "10.0.0.6".

(** Spec-level and status-level addresses both set, no annotation. *)
Definition bothAddresses : VirtualServer := vs1 ∅ "9.9.9.9" "10.0.0.5".

(** The same collaborators with a selector that refuses every object. *)
Definition rejecting : Collaborators :=
  Build_Collaborators GenericObject Requirements Empty (fun _ _ => false) ParseFilter
    TTLFromAnnotations TargetsFromTargetAnnotation EndpointsForHostname Convert.

End SpecModel.


(** ** Auxiliary definitions *)

(** The spellings of "none" in upper and lower case. *)
Definition noneVariants : list string :=
  [ "none"; "nonE"; "noNe"; "noNE"; "nOne"; "nOnE"; "nONe"; "nONE";
    "None"; "NonE"; "NoNe"; "NoNE"; "NOne"; "NOnE"; "NONe"; "NONE" ].

(** Whether the byte [c] occurs in [s]. *)
Fixpoint containsByte (c : ascii) (s : string) : bool :=
  match s with
  | EmptyString => false
  | String c' rest => Ascii.eqb c' c || containsByte c rest
  end.

(** The record the reference collaborators build for the objects of the
    scenarios, with the given targets. *)
Definition recordFor (targets : endpoint_Targets) : Endpoint :=
  {| DNSName := "a.example.com"; Targets := targets; RecordType := "A";
     RecordTTL := None; Resource := "f5-virtualserver/default/vs1"; Labels := ∅ |}.

(** * Properties *)

Section Properties.
Context `{Collaborators}.

Implicit Types (vs : f5VirtualServerSource) (w : World).
Implicit Types (v virtualServer : VirtualServer).

(** ** Library functions *)

Lemma hasValidVirtualServerIP_true v :
  hasValidVirtualServerIP v = true ↔
  ToLower (VSAddress (Status v)) ≠ "none" ∧ ToLower (VSAddress (Status v)) ≠ "".
Proof.
  unfold hasValidVirtualServerIP. cbv zeta.
  rewrite andb_true_iff, !bool_decide_eq_true. done.
Qed.

Lemma hasValidVirtualServerIP_false v :
  hasValidVirtualServerIP v = false ↔
  ToLower (VSAddress (Status v)) = "" ∨ ToLower (VSAddress (Status v)) = "none".
Proof.
  rewrite <- not_true_iff_false, hasValidVirtualServerIP_true.
  generalize (ToLower (VSAddress (Status v))). intros a.
  destruct (decide (a = "none")) as [Hnone|Hnone];
    destruct (decide (a = "")) as [Hempty|Hempty]; tauto.
Qed.

(** ** The loops in closed form *)

Lemma appendLog_nil w : appendLog w [] = w.
Proof. destruct w. unfold appendLog. simpl. by rewrite app_nil_r. Qed.

Lemma appendLog_app w l1 l2 : appendLog (appendLog w l1) l2 = appendLog w (l1 ++ l2).
Proof. unfold appendLog. simpl. by rewrite app_assoc. Qed.

Lemma endpointsStep_closed endpoints w v :
  endpointsStep (endpoints, w) v
  = (endpoints ++ objectEndpoints v, appendLog w (objectWarnings v)).
Proof.
  unfold endpointsStep, objectEndpoints, objectWarnings.
  destruct (hasValidVirtualServerIP v); simpl.
  - by rewrite appendLog_nil.
  - by rewrite app_nil_r.
Qed.

Lemma fold_endpointsStep (l : list VirtualServer) : ∀ endpoints w,
  fold_left endpointsStep l (endpoints, w)
  = (endpoints ++ flat_map objectEndpoints l,
     appendLog w (flat_map objectWarnings l)).
Proof.
  induction l as [|v l IH]; intros endpoints w; cbn [fold_left flat_map].
  - by rewrite app_nil_r, appendLog_nil.
  - rewrite endpointsStep_closed, IH, appendLog_app, <- app_assoc. done.
Qed.

Lemma endpointsFromVirtualServers_closed vs (l : list VirtualServer) w :
  endpointsFromVirtualServers vs l w
  = (Ok (flat_map objectEndpoints l), appendLog w (flat_map objectWarnings l)).
Proof. unfold endpointsFromVirtualServers. by rewrite fold_endpointsStep. Qed.

Lemma filter_loop_closed (keep : VirtualServer → bool) (l : list VirtualServer) :
  ∀ filteredList,
    fold_left (fun filteredList v => if keep v then filteredList ++ [v] else filteredList)
      l filteredList
    = filteredList ++ List.filter keep l.
Proof.
  induction l as [|v l IH]; intros acc; simpl.
  - by rewrite app_nil_r.
  - rewrite IH. destruct (keep v); [|done]. by rewrite <- app_assoc.
Qed.

Lemma filter_all_true (keep : VirtualServer → bool) (l : list VirtualServer) :
  (∀ v, keep v = true) → List.filter keep l = l.
Proof.
  intros Hall. induction l as [|v l IH]; simpl; [done|].
  by rewrite Hall, IH.
Qed.

Lemma filterByAnnotations_closed vs selector (l : list VirtualServer) :
  ParseFilter (annotationFilter vs) = Ok selector →
  filterByAnnotations vs l
  = Ok (if Selector_Empty selector then l
        else List.filter (fun v => Selector_Matches selector (Annotations v)) l).
Proof.
  intros Hparse. unfold filterByAnnotations. rewrite Hparse. simpl.
  destruct (Selector_Empty selector); [done|].
  by rewrite filter_loop_closed.
Qed.

Lemma filterByAnnotations_error vs err (l : list VirtualServer) :
  ParseFilter (annotationFilter vs) = Err err → filterByAnnotations vs l = Err err.
Proof. intros Hparse. unfold filterByAnnotations. by rewrite Hparse. Qed.

(** The conversion loop either converts every object, in order, or returns
    the error of the first object that fails. *)
Lemma convertObjects_app objs : ∀ more acc,
  convertObjects (objs ++ more) acc
  = (converted <- convertObjects objs acc ;; convertObjects more converted).
Proof.
  induction objs as [|obj objs IH]; intros more acc; simpl; [done|].
  destruct (convertObject obj) as [x|e]; simpl; [apply IH | done].
Qed.

Lemma convertObjects_acc objs : ∀ acc,
  convertObjects objs acc
  = (converted <- convertObjects objs [] ;; Ok (acc ++ converted)).
Proof.
  induction objs as [|obj objs IH]; intros acc; simpl.
  - by rewrite app_nil_r.
  - destruct (convertObject obj) as [x|e]; simpl; [|done].
    rewrite (IH (acc ++ [x])), (IH [x]).
    destruct (convertObjects objs []) as [t|e]; simpl; [|done].
    by rewrite <- app_assoc.
Qed.

Lemma convertObjects_first_failure objs : ∀ acc obj err post,
  convertObject obj = Err err →
  (∀ o, o ∈ objs → isErr (convertObject o) = false) →
  convertObjects (objs ++ obj :: post) acc = Err err.
Proof.
  induction objs as [|o objs IH]; intros acc obj err post Hfail Hpre; simpl.
  - by rewrite Hfail.
  - pose proof (Hpre o ltac:(left)) as Ho.
    destruct (convertObject o) as [x|e]; simpl in *; [|done].
    apply IH; [done|]. intros o' Hin. apply Hpre. by right.
Qed.

(** A list with a failing object splits at the first one. *)
Lemma first_failure_split (objs : list RuntimeObject) obj :
  obj ∈ objs → isErr (convertObject obj) = true →
  ∃ pre bad post err,
    objs = pre ++ bad :: post ∧ convertObject bad = Err err ∧
    ∀ o, o ∈ pre → isErr (convertObject o) = false.
Proof.
  induction objs as [|o objs IH]; intros Hin Hbad.
  - by apply elem_of_nil in Hin.
  - destruct (convertObject o) as [x|e] eqn:Ho.
    + apply elem_of_cons in Hin as [->|Hin]; [by rewrite Ho in Hbad|].
      destruct (IH Hin Hbad) as (pre & bad & post & err & -> & Hfail & Hpre).
      exists (o :: pre), bad, post, err. split_and!; [done..|].
      intros o' [->|Hin']%elem_of_cons; [by rewrite Ho | by apply Hpre].
    + exists [], o, objs, e. split_and!; [done..|].
      intros o' Hin'. by apply elem_of_nil in Hin'.
Qed.

Lemma convertObjects_error_source objs : ∀ acc err,
  convertObjects objs acc = Err err →
  ∃ bad, bad ∈ objs ∧ convertObject bad = Err err.
Proof.
  induction objs as [|obj objs IH]; intros acc err Hfail; simpl in Hfail; [done|].
  destruct (convertObject obj) as [x|e] eqn:Hobj; simpl in Hfail.
  - destruct (IH _ _ Hfail) as (bad & Hin & Hbad).
    exists bad. split; [by right | done].
  - injection Hfail as ->. exists obj. split; [by left | done].
Qed.

(** A failing conversion loop stopped at the first object that fails. *)
Lemma convertObjects_failure_split (objs : list RuntimeObject) err :
  convertObjects objs [] = Err err →
  ∃ pre bad post,
    objs = pre ++ bad :: post ∧ convertObject bad = Err err ∧
    ∀ obj, obj ∈ pre → isErr (convertObject obj) = false.
Proof.
  intros Hfail.
  destruct (convertObjects_error_source objs [] err Hfail) as (bad0 & Hin & Hbad0).
  assert (Hbad0' : isErr (convertObject bad0) = true) by by rewrite Hbad0.
  destruct (first_failure_split objs bad0 Hin Hbad0')
    as (pre & bad & post & err' & -> & Hbad & Hpre).
  rewrite (convertObjects_first_failure pre [] bad err' post Hbad Hpre) in Hfail.
  injection Hfail as ->. by exists pre, bad, post.
Qed.

(** [Endpoints] reads the listing and nothing else of the world, and writes
    only to the log. *)
Lemma Endpoints_result vs w :
  (Endpoints vs w).1 = endpointsOf vs (informerCache w (namespace vs)).
Proof.
  unfold Endpoints, endpointsOf.
  destruct (informerCache w (namespace vs)) as [objs|e]; simpl; [|done].
  destruct (convertObjects objs []) as [l|e]; simpl; [|done].
  destruct (filterByAnnotations vs l) as [l'|e]; simpl; [|done].
  by rewrite endpointsFromVirtualServers_closed.
Qed.

Lemma Endpoints_cache vs w :
  informerCache (Endpoints vs w).2 = informerCache w.
Proof.
  unfold Endpoints.
  destruct (informerCache w (namespace vs)) as [objs|e]; simpl; [|done].
  destruct (convertObjects objs []) as [l|e]; simpl; [|done].
  destruct (filterByAnnotations vs l) as [l'|e]; simpl; [|done].
  by rewrite endpointsFromVirtualServers_closed.
Qed.

(** ** The order of targets *)

(** The sorted arrangement of a target list is unique, so any algorithm that
    leaves a sorted permutation computes [merge_sort String.le]. *)
Lemma sortTargets_unique (targets sorted : endpoint_Targets) :
  Sorted String.le sorted → sorted ≡ₚ targets →
  sorted = merge_sort String.le targets.
Proof.
  intros Hsorted Hperm.
  apply (Sorted_unique String.le); [done | apply Sorted_merge_sort; apply _ |].
  by rewrite Hperm, merge_sort_Permutation.
Qed.

(** ** Endpoint synthesis *)

Lemma objectEndpoints_valid v :
  hasValidVirtualServerIP v = true →
  objectEndpoints v
  = EndpointsForHostname (Host (Spec v)) (resolveTargets v)
      (TTLFromAnnotations (Annotations v) (resourceOf v)) [] "" (resourceOf v).
Proof. intros Hvalid. unfold objectEndpoints. by rewrite Hvalid. Qed.

Lemma endpointsFromVirtualServers_valid vs v w :
  hasValidVirtualServerIP v = true →
  endpointsFromVirtualServers vs [v] w
  = (Ok (EndpointsForHostname (Host (Spec v)) (resolveTargets v)
           (TTLFromAnnotations (Annotations v) (resourceOf v)) [] "" (resourceOf v)),
     w).
Proof.
  intros Hvalid. rewrite endpointsFromVirtualServers_closed. simpl.
  unfold objectWarnings. rewrite (objectEndpoints_valid v Hvalid), Hvalid.
  simpl. by rewrite !app_nil_r, appendLog_nil.
Qed.

Lemma resolveTargets_annotation v :
  TargetsFromTargetAnnotation (Annotations v) ≠ [] →
  resolveTargets v = TargetsFromTargetAnnotation (Annotations v).
Proof.
  intros Hne. unfold resolveTargets.
  destruct (TargetsFromTargetAnnotation (Annotations v)) as [|t ts]; [done|].
  reflexivity.
Qed.

Lemma resolveTargets_no_annotation v :
  TargetsFromTargetAnnotation (Annotations v) = [] →
  resolveTargets v
  = if decide (VirtualServerAddress (Spec v) = "")
    then (if decide (VSAddress (Status v) = "") then [] else [VSAddress (Status v)])
    else [VirtualServerAddress (Spec v)].
Proof.
  intros Hnil. unfold resolveTargets. rewrite Hnil. simpl.
  destruct (decide (VirtualServerAddress (Spec v) = "")) as [Hs|Hs].
  - rewrite (bool_decide_eq_false_2 _ (λ Hn, Hn Hs)). simpl.
    destruct (decide (VSAddress (Status v) = "")) as [Ht|Ht].
    + by rewrite (bool_decide_eq_false_2 _ (λ Hn, Hn Ht)).
    + by rewrite (bool_decide_eq_true_2 _ Ht).
  - by rewrite (bool_decide_eq_true_2 _ Hs).
Qed.

(** C1. A VirtualServer whose status address, lower-cased, is empty or is
    "none" is skipped by the synthesis step: alone it yields no record, no
    error and one warning; inside any batch the call returns without error
    exactly the records of the batch without it. *)
Theorem invalid_status_address_is_skipped vs v :
  ToLower (VSAddress (Status v)) = "" ∨ ToLower (VSAddress (Status v)) = "none" →
  (∀ w, endpointsFromVirtualServers vs [v] w
        = (Ok [], log_Warnf (skipMessage v) w)) ∧
  (∀ pre post w, ∃ endpoints,
      (endpointsFromVirtualServers vs (pre ++ v :: post) w).1 = Ok endpoints ∧
      (endpointsFromVirtualServers vs (pre ++ post) w).1 = Ok endpoints).
Proof.
  intros Hgate%hasValidVirtualServerIP_false. split.
  - intros w. rewrite endpointsFromVirtualServers_closed. simpl.
    unfold objectEndpoints, objectWarnings. rewrite Hgate. done.
  - intros pre post w. exists (flat_map objectEndpoints (pre ++ post)).
    rewrite !endpointsFromVirtualServers_closed. simpl. split; [|done].
    rewrite !flat_map_app. simpl. unfold objectEndpoints at 2. by rewrite Hgate.
Qed.

(** C2. For a VirtualServer that passes the validity gate and whose
    target-override annotation parses to one or more addresses, the targets
    handed to record construction are exactly the parsed annotation
    addresses; the outcome is the same whatever the spec-level and
    status-level addresses are; and when record construction attaches the
    targets it is given, every record returned for the object after the final sort
    by [Endpoints] carries exactly the annotation addresses, sorted. *)
Theorem target_annotation_overrides_addresses vs v :
  hasValidVirtualServerIP v = true →
  TargetsFromTargetAnnotation (Annotations v) ≠ [] →
  resolveTargets v = TargetsFromTargetAnnotation (Annotations v) ∧
  (∀ w, endpointsFromVirtualServers vs [v] w
        = (Ok (EndpointsForHostname (Host (Spec v))
                 (TargetsFromTargetAnnotation (Annotations v))
                 (TTLFromAnnotations (Annotations v) (resourceOf v))
                 [] "" (resourceOf v)),
           w)) ∧
  (∀ specAddress statusAddress w,
      hasValidVirtualServerIP (withAddresses v specAddress statusAddress) = true →
      endpointsFromVirtualServers vs [withAddresses v specAddress statusAddress] w
      = endpointsFromVirtualServers vs [v] w) ∧
  (attachesTargets →
   ∀ w u endpoints ep,
      informerCache w (namespace vs) = Ok [UnstructuredObject u] →
      scheme_Convert u = Ok v →
      filterByAnnotations vs [v] = Ok [v] →
      (Endpoints vs w).1 = Ok endpoints →
      ep ∈ endpoints →
      Targets ep = merge_sort String.le (TargetsFromTargetAnnotation (Annotations v)) ∧
      Targets ep ≡ₚ TargetsFromTargetAnnotation (Annotations v)).
Proof.
  intros Hvalid Hann.
  pose proof (resolveTargets_annotation v Hann) as Hres.
  split_and!.
  - done.
  - intros w. by rewrite endpointsFromVirtualServers_valid, Hres.
  - intros specAddress statusAddress w Hvalid'.
    rewrite !endpointsFromVirtualServers_valid by done.
    rewrite Hres, resolveTargets_annotation by done. done.
  - intros Hattach w u endpoints ep Hlist Hconv Hfilter Hrun Hin.
    rewrite Endpoints_result, Hlist in Hrun. unfold endpointsOf in Hrun.
    simpl in Hrun. unfold convertObject in Hrun. rewrite Hconv in Hrun.
    simpl in Hrun. rewrite Hfilter in Hrun. simpl in Hrun.
    rewrite app_nil_r, (objectEndpoints_valid v Hvalid), Hres in Hrun.
    injection Hrun as <-.
    apply list_elem_of_fmap in Hin as (ep0 & -> & Hin0).
    apply Hattach in Hin0. simpl. rewrite Hin0.
    split; [done | apply merge_sort_Permutation].
Qed.

(** C3. For a VirtualServer that passes the validity gate and whose
    target-override annotation yields no address, a non-empty spec-level
    address is the sole target, whatever the status-level address; with an
    empty spec-level address a non-empty status-level address is the sole
    target.  These are the targets handed to record construction. *)
Theorem spec_address_precedes_status_address vs v :
  hasValidVirtualServerIP v = true →
  TargetsFromTargetAnnotation (Annotations v) = [] →
  (VirtualServerAddress (Spec v) ≠ "" →
     resolveTargets v = [VirtualServerAddress (Spec v)]) ∧
  (VirtualServerAddress (Spec v) = "" → VSAddress (Status v) ≠ "" →
     resolveTargets v = [VSAddress (Status v)]) ∧
  (∀ w, endpointsFromVirtualServers vs [v] w
        = (Ok (EndpointsForHostname (Host (Spec v)) (resolveTargets v)
                 (TTLFromAnnotations (Annotations v) (resourceOf v))
                 [] "" (resourceOf v)),
           w)).
Proof.
  intros Hvalid Hnil.
  pose proof (resolveTargets_no_annotation v Hnil) as Hres.
  split_and!.
  - intros Hspec. rewrite Hres. by rewrite decide_False.
  - intros Hspec Hstatus. rewrite Hres. by rewrite decide_True, decide_False.
  - intros w. by apply endpointsFromVirtualServers_valid.
Qed.

(** C9. For a VirtualServer that passes the validity gate the status-level
    address is neither empty nor "none", and the resolved target list handed
    to record construction is never empty: when the annotation yields
    nothing and the spec-level address is empty it is the status-level
    address. *)
Theorem valid_object_has_targets vs v :
  hasValidVirtualServerIP v = true →
  VSAddress (Status v) ≠ "" ∧
  VSAddress (Status v) ≠ "none" ∧
  resolveTargets v ≠ [] ∧
  (TargetsFromTargetAnnotation (Annotations v) = [] →
   VirtualServerAddress (Spec v) = "" →
   resolveTargets v = [VSAddress (Status v)]) ∧
  (∀ w, ∃ targets,
      targets ≠ [] ∧
      endpointsFromVirtualServers vs [v] w
      = (Ok (EndpointsForHostname (Host (Spec v)) targets
               (TTLFromAnnotations (Annotations v) (resourceOf v))
               [] "" (resourceOf v)),
         w)).
Proof.
  intros Hvalid.
  pose proof Hvalid as [Hnone Hempty]%hasValidVirtualServerIP_true.
  assert (Hstatus : VSAddress (Status v) ≠ "").
  { intros Heq. rewrite Heq in Hempty. by apply Hempty. }
  assert (Hres : resolveTargets v ≠ []).
  { destruct (TargetsFromTargetAnnotation (Annotations v)) as [|t ts] eqn:Hann.
    - rewrite (resolveTargets_no_annotation v Hann).
      destruct (decide (VirtualServerAddress (Spec v) = "")); [|done].
      by rewrite decide_False.
    - rewrite resolveTargets_annotation; by rewrite Hann. }
  split_and!; [done| |done| |].
  - intros Heq. rewrite Heq in Hnone. by apply Hnone.
  - intros Hann Hspec. rewrite (resolveTargets_no_annotation v Hann).
    by rewrite decide_True, decide_False.
  - intros w. exists (resolveTargets v). split; [done|].
    by apply endpointsFromVirtualServers_valid.
Qed.

(** ** Ordering and reproducibility *)

(** C4. Every record returned by [Endpoints] has its targets sorted for the
    lexicographic order on address strings, a total order; [Endpoints] leaves
    the cache as
    it found it, and its result depends on the world through the listing
    only, so a second call on the world left by the first, or on any world
    with the same listing, returns the same result. *)
Theorem endpoints_sorted_and_reproducible vs w :
  (PartialOrder String.le ∧ Total String.le) ∧
  (∀ endpoints ep,
      (Endpoints vs w).1 = Ok endpoints → ep ∈ endpoints →
      StronglySorted String.le (Targets ep)) ∧
  informerCache (Endpoints vs w).2 = informerCache w ∧
  (Endpoints vs (Endpoints vs w).2).1 = (Endpoints vs w).1 ∧
  (∀ w', informerCache w' (namespace vs) = informerCache w (namespace vs) →
         (Endpoints vs w').1 = (Endpoints vs w).1).
Proof.
  split_and!.
  - apply _.
  - apply _.
  - intros endpoints ep Hrun Hin. rewrite Endpoints_result in Hrun.
    unfold endpointsOf in Hrun.
    destruct (informerCache w (namespace vs)) as [objs|e]; simpl in Hrun; [|done].
    destruct (convertObjects objs []) as [l|e]; simpl in Hrun; [|done].
    destruct (filterByAnnotations vs l) as [l'|e]; simpl in Hrun; [|done].
    injection Hrun as <-.
    apply list_elem_of_fmap in Hin as (ep0 & -> & _). simpl.
    apply StronglySorted_merge_sort; apply _.
  - apply Endpoints_cache.
  - by rewrite !Endpoints_result, Endpoints_cache.
  - intros w' Hsame. by rewrite !Endpoints_result, Hsame.
Qed.

(** ** Filtering *)

(** C5. When the stored filter expression is empty, and the empty expression
    compiles to an empty selector, [filterByAnnotations] returns its input
    list itself; nothing is assumed of [Selector_Matches], which is not
    consulted. *)
Theorem empty_filter_is_identity vs selector (l : list VirtualServer) :
  annotationFilter vs = "" →
  ParseFilter "" = Ok selector →
  Selector_Empty selector = true →
  filterByAnnotations vs l = Ok l.
Proof.
  intros Hexpr Hparse Hempty.
  rewrite (filterByAnnotations_closed vs selector); [|by rewrite Hexpr].
  by rewrite Hempty.
Qed.

(** C6. For a well-formed filter expression, [filterByAnnotations] returns
    exactly the input objects whose annotations match the compiled selector,
    in their order and unchanged; an object that does not match is dropped
    from any batch, and [Endpoints] returns what it returns on the listing
    without that object. *)
Theorem filter_is_restriction vs selector (l : list VirtualServer) :
  ParseFilter (annotationFilter vs) = Ok selector →
  emptyMatchesEverything selector →
  let keep := fun v => Selector_Matches selector (Annotations v) in
  filterByAnnotations vs l = Ok (List.filter keep l) ∧
  List.filter keep l `sublist_of` l ∧
  (∀ v, v ∈ List.filter keep l ↔ v ∈ l ∧ keep v = true) ∧
  (∀ pre v post, keep v = false →
      filterByAnnotations vs (pre ++ v :: post)
      = filterByAnnotations vs (pre ++ post)) ∧
  (∀ w w' pre u post v,
      informerCache w (namespace vs) = Ok (pre ++ UnstructuredObject u :: post) →
      informerCache w' (namespace vs) = Ok (pre ++ post) →
      scheme_Convert u = Ok v → keep v = false →
      (Endpoints vs w).1 = (Endpoints vs w').1).
Proof.
  intros Hparse Hcontract keep.
  assert (Hclosed : ∀ l', filterByAnnotations vs l' = Ok (List.filter keep l')).
  { intros l'. rewrite (filterByAnnotations_closed vs selector l' Hparse).
    destruct (Selector_Empty selector) eqn:Hempty; [|done].
    rewrite filter_all_true; [done|]. intros v. by apply Hcontract. }
  assert (Hdrop : ∀ pre v post, keep v = false →
            List.filter keep (pre ++ v :: post) = List.filter keep (pre ++ post)).
  { intros pre v post Hv. rewrite !List.filter_app. simpl. by rewrite Hv. }
  split_and!.
  - apply Hclosed.
  - induction l as [|x l IH]; simpl; [done|].
    destruct (keep x); [by apply sublist_skip | by apply sublist_cons].
  - intros v. rewrite !list_elem_of_In. apply List.filter_In.
  - intros pre v post Hv. by rewrite !Hclosed, Hdrop.
  - intros w w' pre u post v Hw Hw' Hconv Hv.
    rewrite !Endpoints_result, Hw, Hw'. unfold endpointsOf. simpl.
    rewrite !convertObjects_app.
    destruct (convertObjects pre []) as [cp|e]; simpl; [|done].
    rewrite Hconv. simpl.
    rewrite (convertObjects_acc post (cp ++ [v])), (convertObjects_acc post cp).
    destruct (convertObjects post []) as [ct|e]; simpl; [|done].
    rewrite <- app_assoc. simpl. by rewrite !Hclosed, Hdrop.
Qed.

(** ** Errors *)

(** C7. When the listing succeeds and some listed object fails conversion
    (it is not an [*unstructured.Unstructured], or the scheme conversion
    fails), [Endpoints] returns an error and no endpoints, whatever the other
    objects are; the error is the one of a failing object, and nothing is
    logged. *)
Theorem conversion_failure_aborts vs w (objs : list RuntimeObject) obj :
  informerCache w (namespace vs) = Ok objs →
  obj ∈ objs →
  isErr (convertObject obj) = true →
  ∃ err bad,
    Endpoints vs w = (Err err, w) ∧ bad ∈ objs ∧ convertObject bad = Err err.
Proof.
  intros Hlist Hin Hbad.
  destruct (first_failure_split objs obj Hin Hbad)
    as (pre & bad & post & err & -> & Hfail & Hpre).
  exists err, bad. split_and!; [|apply elem_of_app; right; left|done].
  unfold Endpoints. rewrite Hlist.
  by rewrite (convertObjects_first_failure pre [] bad err post Hfail Hpre).
Qed.

(** C8, as the code has it.  Construction does not parse the filter
    expression: it fails exactly when the initial cache synchronisation or
    the converter setup fails, and otherwise returns a source that stores the
    expression as given, malformed or not.  A malformed expression then makes
    every [Endpoints] call on that source fail. *)
Theorem construction_does_not_parse_filter (env : Startup) (ns expr : string) :
  (WaitForDynamicCacheSync env = None ∧ AddToScheme env = None ↔
   NewF5VirtualServerSource env ns expr
   = Ok {| annotationFilter := expr; namespace := ns |}) ∧
  (WaitForDynamicCacheSync env ≠ None ∨ AddToScheme env ≠ None ↔
   isErr (NewF5VirtualServerSource env ns expr) = true) ∧
  (∀ vs w, NewF5VirtualServerSource env ns expr = Ok vs →
           isErr (ParseFilter expr) = true →
           isErr (Endpoints vs w).1 = true).
Proof.
  unfold NewF5VirtualServerSource, newVSUnstructuredConverter.
  destruct (WaitForDynamicCacheSync env) as [e1|];
    destruct (AddToScheme env) as [e2|]; simpl; split_and!.
  all: try (split; [intros [? ?] | intros ?]; done).
  all: try (split; [intros [?|?] | intros ?]; done).
  all: try (split; [intros _ | intros _; left]; done).
  all: try (split; [intros _ | intros _; right]; done).
  all: try (intros ? ? ?; done).
  intros vs w [= <-] Hbad. rewrite Endpoints_result. unfold endpointsOf.
  destruct (informerCache w _) as [objs|e]; simpl; [|done].
  destruct (convertObjects objs []) as [l|e]; simpl; [|done].
  unfold filterByAnnotations. simpl.
  by destruct (ParseFilter expr).
Qed.

(** C10, as the code has it.  The stored filter expression is parsed by
    [filterByAnnotations] inside [Endpoints], after listing and conversion.
    If it is malformed, every [Endpoints] call fails, returns no endpoints
    and logs nothing.  The error is the one [Endpoints] reaches first: the
    listing error when the listing fails; the conversion error of the first
    listed object that does not convert when there is one; and the parse
    error wrapped with "failed to filter VirtualServers: " when listing and
    conversion succeed.  Construction with that expression succeeds once the
    cache has synced and the converter is set up. *)
Theorem malformed_filter_fails_every_call vs err w :
  ParseFilter (annotationFilter vs) = Err err →
  (∃ e, Endpoints vs w = (Err e, w)) ∧
  (∀ listErr,
      informerCache w (namespace vs) = Err listErr →
      Endpoints vs w = (Err listErr, w)) ∧
  (∀ pre bad post convErr,
      informerCache w (namespace vs) = Ok (pre ++ bad :: post) →
      (∀ obj, obj ∈ pre → isErr (convertObject obj) = false) →
      convertObject bad = Err convErr →
      Endpoints vs w = (Err convErr, w)) ∧
  (∀ objs virtualServers,
      informerCache w (namespace vs) = Ok objs →
      convertObjects objs [] = Ok virtualServers →
      Endpoints vs w
      = (Err (wrapError ("failed to filter VirtualServers: " +:+ Error err) err), w)) ∧
  (∀ e, Endpoints vs w = (Err e, w) →
      informerCache w (namespace vs) = Err e
      ∨ (∃ pre bad post,
           informerCache w (namespace vs) = Ok (pre ++ bad :: post) ∧
           (∀ obj, obj ∈ pre → isErr (convertObject obj) = false) ∧
           convertObject bad = Err e)
      ∨ ((∃ objs virtualServers,
            informerCache w (namespace vs) = Ok objs ∧
            convertObjects objs [] = Ok virtualServers) ∧
         e = wrapError ("failed to filter VirtualServers: " +:+ Error err) err)) ∧
  (∀ env,
      WaitForDynamicCacheSync env = None → AddToScheme env = None →
      NewF5VirtualServerSource env (namespace vs) (annotationFilter vs) = Ok vs).
Proof.
  intros Hparse. split_and!.
  - unfold Endpoints.
    destruct (informerCache w (namespace vs)) as [objs|e]; [|by eexists].
    destruct (convertObjects objs []) as [l|e]; [|by eexists].
    rewrite (filterByAnnotations_error vs err l Hparse). by eexists.
  - intros listErr Hlist. unfold Endpoints. by rewrite Hlist.
  - intros pre bad post convErr Hlist Hpre Hbad. unfold Endpoints.
    by rewrite Hlist, (convertObjects_first_failure pre [] bad convErr post Hbad Hpre).
  - intros objs l Hlist Hconv. unfold Endpoints.
    by rewrite Hlist, Hconv, (filterByAnnotations_error vs err l Hparse).
  - intros e. unfold Endpoints.
    destruct (informerCache w (namespace vs)) as [objs|e0] eqn:Hlist.
    + destruct (convertObjects objs []) as [l|e0] eqn:Hconv.
      * rewrite (filterByAnnotations_error vs err l Hparse).
        intros [= <-]. right. right. split; [by exists objs, l | done].
      * intros [= <-]. right. left.
        destruct (convertObjects_failure_split objs e0 Hconv)
          as (pre & bad & post & -> & Hbad & Hpre).
        by exists pre, bad, post.
    + intros [= <-]. by left.
  - intros env Hsync Hscheme.
    unfold NewF5VirtualServerSource, newVSUnstructuredConverter.
    rewrite Hsync, Hscheme. by destruct vs.
Qed.

End Properties.

(** * Further properties of the source *)

Section FurtherProperties.
Context `{Collaborators}.

Implicit Types (vs : f5VirtualServerSource) (w : World).
Implicit Types (v virtualServer : VirtualServer).

(** ** Conversion *)

Lemma convertObjects_Forall2 (objs : list RuntimeObject) (l : list VirtualServer) :
  convertObjects objs [] = Ok l ↔
  Forall2 (fun obj v => convertObject obj = Ok v) objs l.
Proof.
  revert l. induction objs as [|obj objs IH]; intros l; simpl.
  - split.
    + intros [= <-]. constructor.
    + intros ->%Forall2_nil_inv_l. done.
  - split.
    + destruct (convertObject obj) as [x|e] eqn:Hx; simpl; [|done].
      rewrite (convertObjects_acc objs [x]).
      destruct (convertObjects objs []) as [t|e] eqn:Ht; simpl; [|done].
      intros [= <-]. constructor; [done | by apply IH].
    + intros (x & t & Hx & Ht & ->)%Forall2_cons_inv_l. rewrite Hx. simpl.
      rewrite (convertObjects_acc objs [x]).
      apply IH in Ht. by rewrite Ht.
Qed.

(** X1. The conversion loop is all or nothing.  It succeeds exactly when
    every listed object converts, and then returns one converted object per
    listed object, in the order of the listing; when it fails, the error is
    the conversion error of a listed object, and no object after the first
    failing one is looked at. *)
Theorem convertObjects_all_or_nothing (objs : list RuntimeObject) :
  (∀ l, convertObjects objs [] = Ok l ↔
        Forall2 (fun obj v => convertObject obj = Ok v) objs l) ∧
  (∀ l, convertObjects objs [] = Ok l → length l = length objs) ∧
  (∀ err, convertObjects objs [] = Err err →
          ∃ pre bad post,
            objs = pre ++ bad :: post ∧ convertObject bad = Err err ∧
            (∀ obj, obj ∈ pre → isErr (convertObject obj) = false) ∧
            ∀ post', convertObjects (pre ++ bad :: post') [] = Err err).
Proof.
  split_and!.
  - intros l. apply convertObjects_Forall2.
  - intros l Hconv%convertObjects_Forall2. symmetry. by eapply Forall2_length.
  - intros err Hfail.
    destruct (convertObjects_failure_split objs err Hfail)
      as (pre & bad & post & -> & Hbad & Hpre).
    exists pre, bad, post. split_and!; [done..|].
    intros post'. by apply convertObjects_first_failure.
Qed.

(** ** Results and errors of [Endpoints] *)

(** X2. [Endpoints] returns endpoints exactly when the listing succeeds,
    every listed object converts and the stored filter expression parses;
    bad addresses on the objects never make it fail. *)
Theorem Endpoints_ok_iff vs w :
  (∃ endpoints, (Endpoints vs w).1 = Ok endpoints) ↔
  (∃ objs l selector,
      informerCache w (namespace vs) = Ok objs ∧
      Forall2 (fun obj v => convertObject obj = Ok v) objs l ∧
      ParseFilter (annotationFilter vs) = Ok selector).
Proof.
  rewrite Endpoints_result. unfold endpointsOf. split.
  - intros [endpoints Hrun].
    destruct (informerCache w (namespace vs)) as [objs|e]; simpl in Hrun; [|done].
    destruct (convertObjects objs []) as [l|e] eqn:Hconv; simpl in Hrun; [|done].
    destruct (ParseFilter (annotationFilter vs)) as [selector|e] eqn:Hparse.
    + exists objs, l, selector.
      split_and!; [done | by apply convertObjects_Forall2 | done].
    + by rewrite (filterByAnnotations_error vs e l Hparse) in Hrun.
  - intros (objs & l & selector & -> & Hconv%convertObjects_Forall2 & Hparse).
    simpl. rewrite Hconv. simpl.
    rewrite (filterByAnnotations_closed vs selector l Hparse). by eexists.
Qed.

(** X3. When [Endpoints] fails, the error is the listing error, or the
    conversion error of a listed object, or the filter parse error wrapped
    with "failed to filter VirtualServers: "; and the call has written
    nothing to the log. *)
Theorem Endpoints_error_sources vs w err :
  (Endpoints vs w).1 = Err err →
  (Endpoints vs w).2 = w ∧
  (informerCache w (namespace vs) = Err err
   ∨ (∃ objs bad,
        informerCache w (namespace vs) = Ok objs ∧
        bad ∈ objs ∧ convertObject bad = Err err)
   ∨ (∃ parseErr,
        ParseFilter (annotationFilter vs) = Err parseErr ∧
        err = wrapError ("failed to filter VirtualServers: " +:+ Error parseErr)
                parseErr)).
Proof.
  unfold Endpoints.
  destruct (informerCache w (namespace vs)) as [objs|e] eqn:Hlist; simpl.
  - destruct (convertObjects objs []) as [l|e] eqn:Hconv; simpl.
    + destruct (filterByAnnotations vs l) as [l'|e] eqn:Hfilter; simpl.
      * rewrite endpointsFromVirtualServers_closed. done.
      * intros [= <-]. split; [done|]. right. right.
        unfold filterByAnnotations in Hfilter.
        destruct (ParseFilter (annotationFilter vs)) as [selector|e'];
          simpl in Hfilter.
        -- by destruct (Selector_Empty selector).
        -- injection Hfilter as ->. by exists e.
    + intros [= <-]. split; [done|]. right. left.
      destruct (convertObjects_error_source objs [] e Hconv) as (bad & Hin & Hbad).
      by exists objs, bad.
  - intros [= <-]. split; [done|]. by left.
Qed.

(** ** Where records come from *)

(** X5. The records returned by [Endpoints] are exactly the records built by
    [EndpointsForHostname] for the objects that survived the filter and pass
    the address check, each with its targets sorted: no record appears
    without such an object, and none that was built is dropped. *)
Theorem Endpoints_records vs w (objs : list RuntimeObject)
    (l l' : list VirtualServer) :
  informerCache w (namespace vs) = Ok objs →
  convertObjects objs [] = Ok l →
  filterByAnnotations vs l = Ok l' →
  ∃ endpoints,
    (Endpoints vs w).1 = Ok endpoints ∧
    ∀ ep, ep ∈ endpoints ↔
      ∃ v built,
        v ∈ l' ∧ hasValidVirtualServerIP v = true ∧
        built ∈ EndpointsForHostname (Host (Spec v)) (resolveTargets v)
                  (TTLFromAnnotations (Annotations v) (resourceOf v))
                  [] "" (resourceOf v) ∧
        ep = sortTargets built.
Proof.
  intros Hlist Hconv Hfilter.
  exists (map sortTargets (flat_map objectEndpoints l')). split.
  - rewrite Endpoints_result, Hlist. unfold endpointsOf. simpl.
    by rewrite Hconv; simpl; rewrite Hfilter.
  - intros ep. rewrite list_elem_of_fmap. split.
    + intros (built & -> & Hin). rewrite list_elem_of_In in Hin.
      apply in_flat_map in Hin as (v & Hv & Hbuilt).
      rewrite <- !list_elem_of_In in *.
      unfold objectEndpoints in Hbuilt.
      destruct (hasValidVirtualServerIP v) eqn:Hvalid.
      * by exists v, built.
      * by apply elem_of_nil in Hbuilt.
    + intros (v & built & Hv & Hvalid & Hbuilt & ->).
      exists built. split; [done|]. rewrite list_elem_of_In.
      apply in_flat_map. exists v. rewrite <- !list_elem_of_In.
      split; [done|]. by rewrite (objectEndpoints_valid v Hvalid).
Qed.

(** ** Filtering *)

Lemma filter_filter_same (keep : VirtualServer → bool) (l : list VirtualServer) :
  List.filter keep (List.filter keep l) = List.filter keep l.
Proof.
  induction l as [|v l IH]; simpl; [done|].
  destruct (keep v) eqn:Hv; simpl; [|done]. by rewrite Hv, IH.
Qed.

Lemma filter_sublist (keep : VirtualServer → bool) (l : list VirtualServer) :
  List.filter keep l `sublist_of` l.
Proof.
  induction l as [|v l IH]; simpl; [done|].
  destruct (keep v); [by apply sublist_skip | by apply sublist_cons].
Qed.

(** X6. Whatever the selector, a successful [filterByAnnotations] returns a
    sublist of its input (nothing added, nothing reordered), and filtering
    its result again changes nothing. *)
Theorem filterByAnnotations_idempotent vs (l l' : list VirtualServer) :
  filterByAnnotations vs l = Ok l' →
  l' `sublist_of` l ∧ filterByAnnotations vs l' = Ok l'.
Proof.
  intros Hfilter.
  destruct (ParseFilter (annotationFilter vs)) as [selector|e] eqn:Hparse.
  - rewrite (filterByAnnotations_closed vs selector l Hparse) in Hfilter.
    rewrite (filterByAnnotations_closed vs selector l' Hparse).
    injection Hfilter as <-.
    destruct (Selector_Empty selector); [done|].
    split; [apply filter_sublist | by rewrite filter_filter_same].
  - by rewrite (filterByAnnotations_error vs e l Hparse) in Hfilter.
Qed.

(** X7. [filterByAnnotations] treats the objects one by one: filtering a
    concatenation is filtering the parts and concatenating, and it fails on
    the concatenation exactly as it fails on the first part. *)
Theorem filterByAnnotations_app vs (l1 l2 : list VirtualServer) :
  filterByAnnotations vs (l1 ++ l2)
  = (filtered1 <- filterByAnnotations vs l1 ;;
     filtered2 <- filterByAnnotations vs l2 ;;
     Ok (filtered1 ++ filtered2)).
Proof.
  destruct (ParseFilter (annotationFilter vs)) as [selector|e] eqn:Hparse.
  - rewrite !(filterByAnnotations_closed vs selector _ Hparse). simpl.
    destruct (Selector_Empty selector); [done|]. by rewrite List.filter_app.
  - by rewrite !(filterByAnnotations_error vs e _ Hparse).
Qed.

(** ** Composition *)

(** X8. [endpointsFromVirtualServers] on a concatenation is the run on the
    first part followed by the run on the second part from the world the
    first run left: the endpoints are concatenated and the warnings follow
    each other in the log. *)
Theorem endpointsFromVirtualServers_app vs (l1 l2 : list VirtualServer) w :
  endpointsFromVirtualServers vs (l1 ++ l2) w
  = (endpoints1 <- (endpointsFromVirtualServers vs l1 w).1 ;;
     endpoints2 <-
       (endpointsFromVirtualServers vs l2 (endpointsFromVirtualServers vs l1 w).2).1 ;;
     Ok (endpoints1 ++ endpoints2),
     (endpointsFromVirtualServers vs l2 (endpointsFromVirtualServers vs l1 w).2).2).
Proof.
  rewrite !endpointsFromVirtualServers_closed. simpl.
  by rewrite !flat_map_app, appendLog_app.
Qed.

(** X9. [Endpoints] on a listing that is the concatenation of two listings
    on which it succeeds returns the endpoints of the first followed by the
    endpoints of the second. *)
Theorem Endpoints_app vs w1 w2 w (objs1 objs2 : list RuntimeObject)
    (endpoints1 endpoints2 : list Endpoint) :
  informerCache w1 (namespace vs) = Ok objs1 →
  informerCache w2 (namespace vs) = Ok objs2 →
  informerCache w (namespace vs) = Ok (objs1 ++ objs2) →
  (Endpoints vs w1).1 = Ok endpoints1 →
  (Endpoints vs w2).1 = Ok endpoints2 →
  (Endpoints vs w).1 = Ok (endpoints1 ++ endpoints2).
Proof.
  rewrite !Endpoints_result. intros -> -> ->. unfold endpointsOf. simpl.
  rewrite convertObjects_app.
  destruct (convertObjects objs1 []) as [c1|e]; simpl; [|done].
  rewrite (convertObjects_acc objs2 c1).
  destruct (convertObjects objs2 []) as [c2|e]; simpl; [|done].
  destruct (ParseFilter (annotationFilter vs)) as [selector|e] eqn:Hparse.
  - rewrite !(filterByAnnotations_closed vs selector _ Hparse).
    intros [= <-] [= <-]. rewrite <- map_app, <- flat_map_app.
    destruct (Selector_Empty selector); [done|]. by rewrite List.filter_app.
  - by rewrite !(filterByAnnotations_error vs e _ Hparse).
Qed.

Lemma filter_Permutation (keep : VirtualServer → bool) (l l' : list VirtualServer) :
  l ≡ₚ l' → List.filter keep l ≡ₚ List.filter keep l'.
Proof.
  induction 1 as [|x l l' _ IH|x y l|l l' l'' _ IH1 _ IH2]; simpl.
  - done.
  - destruct (keep x); [by constructor | done].
  - destruct (keep x), (keep y); try done. apply perm_swap.
  - by etrans.
Qed.

Lemma convert_Permutation (objs objs' : list RuntimeObject) :
  objs ≡ₚ objs' → ∀ l,
  Forall2 (fun obj v => convertObject obj = Ok v) objs l →
  ∃ l', Forall2 (fun obj v => convertObject obj = Ok v) objs' l' ∧ l ≡ₚ l'.
Proof.
  induction 1 as [|x objs objs' _ IH|x y objs|objs objs' objs'' _ IH1 _ IH2];
    intros l Hconv.
  - apply Forall2_nil_inv_l in Hconv as ->. by exists [].
  - apply Forall2_cons_inv_l in Hconv as (v & t & Hv & Ht & ->).
    destruct (IH t Ht) as (t' & Ht' & Hperm).
    exists (v :: t'). split; [by constructor | by constructor].
  - apply Forall2_cons_inv_l in Hconv as (vy & t & Hy & Ht & ->).
    apply Forall2_cons_inv_l in Ht as (vx & t' & Hx & Ht' & ->).
    exists (vx :: vy :: t'). split; [by repeat constructor | apply perm_swap].
  - destruct (IH1 l Hconv) as (l' & Hconv' & Hperm).
    destruct (IH2 l' Hconv') as (l'' & Hconv'' & Hperm').
    exists l''. split; [done | by etrans].
Qed.

(** X10. The order of the listing decides only the order of the result: if
    [Endpoints] succeeds on a listing, it succeeds on every rearrangement of
    that listing and returns the same endpoints, rearranged. *)
Theorem Endpoints_Permutation vs w w' (objs objs' : list RuntimeObject)
    (endpoints : list Endpoint) :
  informerCache w (namespace vs) = Ok objs →
  informerCache w' (namespace vs) = Ok objs' →
  objs ≡ₚ objs' →
  (Endpoints vs w).1 = Ok endpoints →
  ∃ endpoints', (Endpoints vs w').1 = Ok endpoints' ∧ endpoints ≡ₚ endpoints'.
Proof.
  rewrite !Endpoints_result. intros -> -> Hperm. unfold endpointsOf. simpl.
  destruct (convertObjects objs []) as [l|e] eqn:Hconv; simpl; [|done].
  apply convertObjects_Forall2 in Hconv.
  destruct (convert_Permutation objs objs' Hperm l Hconv) as (l' & Hconv' & Hl).
  apply convertObjects_Forall2 in Hconv'. rewrite Hconv'. simpl.
  destruct (ParseFilter (annotationFilter vs)) as [selector|e] eqn:Hparse.
  - rewrite !(filterByAnnotations_closed vs selector _ Hparse).
    intros [= <-]. eexists. split; [done|].
    apply Permutation_map, Permutation_flat_map.
    destruct (Selector_Empty selector); [done | by apply filter_Permutation].
  - by rewrite (filterByAnnotations_error vs e l Hparse).
Qed.

(** ** Construction *)

(** X11. Construction fails with the cache synchronisation error as it is,
    whatever the converter setup would do; with the cache synced it fails
    with the setup error wrapped with "failed to setup unstructured
    converter: "; and it fails in no other way. *)
Theorem NewF5VirtualServerSource_errors (env : Startup) (ns expr : string) err :
  NewF5VirtualServerSource env ns expr = Err err ↔
  WaitForDynamicCacheSync env = Some err
  ∨ (WaitForDynamicCacheSync env = None ∧
     ∃ setupErr,
       AddToScheme env = Some setupErr ∧
       err = wrapError
               ("failed to setup unstructured converter: " +:+ Error setupErr)
               setupErr).
Proof.
  unfold NewF5VirtualServerSource, newVSUnstructuredConverter.
  destruct (WaitForDynamicCacheSync env) as [e1|];
    destruct (AddToScheme env) as [e2|]; simpl; split.
  - intros [= ->]. by left.
  - intros [[= ->] | [? _]]; done.
  - intros [= ->]. by left.
  - intros [[= ->] | [? _]]; done.
  - intros [= <-]. right. split; [done|]. by exists e2.
  - intros [? | [_ (e & [= <-] & ->)]]; done.
  - done.
  - intros [? | [_ (e & ? & _)]]; done.
Qed.

(** ** The address check *)

Lemma toLowerByte_n c : toLowerByte c = "n"%char → c = "n"%char ∨ c = "N"%char.
Proof.
  destruct c as [[] [] [] [] [] [] [] []]; vm_compute; intros Heq;
    try discriminate Heq; (by left) || (by right).
Qed.

Lemma toLowerByte_o c : toLowerByte c = "o"%char → c = "o"%char ∨ c = "O"%char.
Proof.
  destruct c as [[] [] [] [] [] [] [] []]; vm_compute; intros Heq;
    try discriminate Heq; (by left) || (by right).
Qed.

Lemma toLowerByte_e c : toLowerByte c = "e"%char → c = "e"%char ∨ c = "E"%char.
Proof.
  destruct c as [[] [] [] [] [] [] [] []]; vm_compute; intros Heq;
    try discriminate Heq; (by left) || (by right).
Qed.

Lemma ToLower_none_inv (s : string) : ToLower s = "none" ↔ s ∈ noneVariants.
Proof.
  split.
  - destruct s as [|c1 [|c2 [|c3 [|c4 [|c5 s]]]]]; try discriminate.
    simpl. intros [= H1%toLowerByte_n H2%toLowerByte_o H3%toLowerByte_n
                     H4%toLowerByte_e].
    destruct H1 as [-> | ->], H2 as [-> | ->], H3 as [-> | ->], H4 as [-> | ->];
      apply (bool_decide_unpack _); by vm_compute.
  - unfold noneVariants. intros Hin.
    repeat (apply elem_of_cons in Hin as [-> | Hin]; [reflexivity|]).
    by apply elem_of_nil in Hin.
Qed.

(** X12. The address check refuses exactly the objects whose status address
    is empty or is one of the sixteen upper/lower-case spellings of "none";
    every other status address, for instance "none" with a space around it,
    passes. *)
Theorem hasValidVirtualServerIP_refuses v :
  hasValidVirtualServerIP v = false ↔
  VSAddress (Status v) = "" ∨ VSAddress (Status v) ∈ noneVariants.
Proof.
  rewrite hasValidVirtualServerIP_false, ToLower_none_inv.
  split; (intros [Hempty | Hnone]; [left | by right]).
  - by destruct (VSAddress (Status v)).
  - by rewrite Hempty.
Qed.

(** ** The provenance tag *)

Lemma containsByte_head c s :
  containsByte c (String c s) = true.
Proof. simpl. by rewrite Ascii.eqb_refl. Qed.

Lemma separator_split (ns : string) : ∀ ns' name name',
  containsByte "/" ns = false → containsByte "/" ns' = false →
  ns +:+ String "/" name = ns' +:+ String "/" name' →
  ns = ns' ∧ name = name'.
Proof.
  induction ns as [|c ns IH]; intros [|c' ns'] name name' Hns Hns' Heq;
    cbn in Heq.
  - by injection Heq as ->.
  - injection Heq as <- _. by rewrite containsByte_head in Hns'.
  - injection Heq as -> _. by rewrite containsByte_head in Hns.
  - injection Heq as -> Heq. simpl in Hns, Hns'.
    apply orb_false_iff in Hns as [_ Hns]. apply orb_false_iff in Hns' as [_ Hns'].
    destruct (IH ns' name name' Hns Hns' Heq) as [-> ->]. done.
Qed.

(** X14. The provenance tag "f5-virtualserver/<namespace>/<name>" identifies
    the object: two objects whose namespaces contain no "/" and that get the
    same tag have the same namespace and the same name. *)
Theorem resourceOf_identifies v v' :
  containsByte "/" (Namespace v) = false →
  containsByte "/" (Namespace v') = false →
  resourceOf v = resourceOf v' →
  Namespace v = Namespace v' ∧ Name v = Name v'.
Proof.
  intros Hns Hns' Heq. unfold resourceOf in Heq.
  apply (inj (String.app "f5-virtualserver/")) in Heq.
  by apply separator_split.
Qed.

End FurtherProperties.

(** * The source on the reference collaborators *)

Lemma SpecModel_attachesTargets : attachesTargets.
Proof.
  intros hostname targets ttl ps sid resource ep Hin. simpl in Hin.
  unfold SpecModel.EndpointsForHostname in Hin.
  destruct targets as [|t ts]; [by apply elem_of_nil in Hin|].
  apply list_elem_of_singleton in Hin. by subst ep.
Qed.

Lemma SpecModel_emptyMatchesEverything (selector : SpecModel.Requirements) :
  emptyMatchesEverything selector.
Proof.
  intros Hempty ls. simpl in *. unfold SpecModel.Empty in Hempty.
  apply bool_decide_eq_true in Hempty. by subst selector.
Qed.

(** Scenario 1 of the spec: one record for the status address. *)
Example scenario1_endpoints :
  (Endpoints (SpecModel.sourceWith "")
     (SpecModel.worldOf [SpecModel.cached SpecModel.scenario1])).1
  = Ok [ {| DNSName := "a.example.com"; Targets := ["10.0.0.5"];
            RecordType := "A"; RecordTTL := None;
            Resource := "f5-virtualserver/default/vs1"; Labels := ∅ |} ].
Proof. vm_compute. reflexivity. Qed.

(** Scenario 2 of the spec: status address "None", no record. *)
Example scenario2_endpoints :
  (Endpoints (SpecModel.sourceWith "")
     (SpecModel.worldOf [SpecModel.cached SpecModel.scenario2])).1
  = Ok [].
Proof. vm_compute. reflexivity. Qed.

(** Scenario 3 of the spec: the annotation targets, sorted. *)
Example scenario3_endpoints :
  (Endpoints (SpecModel.sourceWith "")
     (SpecModel.worldOf [SpecModel.cached SpecModel.scenario3])).1
  = Ok [ {| DNSName := "a.example.com"; Targets := ["1.2.3.4"; "5.6.7.8"];
            RecordType := "A"; RecordTTL := None;
            Resource := "f5-virtualserver/default/vs1"; Labels := ∅ |} ].
Proof. vm_compute. reflexivity. Qed.

(** Scenario 4 of the spec: the object is filtered out. *)
Example scenario4_endpoints :
  (Endpoints (SpecModel.sourceWith "environment=prod")
     (SpecModel.worldOf [SpecModel.cached SpecModel.scenario4])).1
  = Ok [].
Proof. vm_compute. reflexivity. Qed.

(** ** The properties at concrete objects *)

Lemma invalid_status_address_is_skipped_witness :
  (ToLower (VSAddress (Status SpecModel.scenario2)) = ""
   ∨ ToLower (VSAddress (Status SpecModel.scenario2)) = "none") ∧
  ∀ w, endpointsFromVirtualServers (SpecModel.sourceWith "") [SpecModel.scenario2] w
       = (Ok [], log_Warnf (skipMessage SpecModel.scenario2) w).
Proof.
  assert (Hgate : ToLower (VSAddress (Status SpecModel.scenario2)) = ""
                  ∨ ToLower (VSAddress (Status SpecModel.scenario2)) = "none")
    by (right; reflexivity).
  split; [exact Hgate|].
  exact (proj1 (@invalid_status_address_is_skipped SpecModel.collaborators
                  (SpecModel.sourceWith "") SpecModel.scenario2 Hgate)).
Defined.

Lemma target_annotation_overrides_addresses_witness :
  hasValidVirtualServerIP SpecModel.scenario3 = true ∧
  TargetsFromTargetAnnotation (Annotations SpecModel.scenario3) ≠ [] ∧
  resolveTargets SpecModel.scenario3 = ["5.6.7.8"; "1.2.3.4"] ∧
  ∀ endpoints ep,
    (Endpoints (SpecModel.sourceWith "")
       (SpecModel.worldOf [SpecModel.cached SpecModel.scenario3])).1 = Ok endpoints →
    ep ∈ endpoints →
    Targets ep = ["1.2.3.4"; "5.6.7.8"].
Proof.
  assert (Hvalid : hasValidVirtualServerIP SpecModel.scenario3 = true)
    by reflexivity.
  assert (Hann : TargetsFromTargetAnnotation (Annotations SpecModel.scenario3) ≠ [])
    by (vm_compute; discriminate).
  destruct (@target_annotation_overrides_addresses SpecModel.collaborators
              (SpecModel.sourceWith "") SpecModel.scenario3 Hvalid Hann)
    as (Hres & _ & _ & Hrecords).
  split_and!; [exact Hvalid | exact Hann | exact Hres |].
  intros endpoints ep Hrun Hin.
  exact (proj1 (Hrecords SpecModel_attachesTargets
                  (SpecModel.worldOf [SpecModel.cached SpecModel.scenario3])
                  (SpecModel.Shaped SpecModel.scenario3) endpoints ep
                  eq_refl eq_refl eq_refl Hrun Hin)).
Defined.

Lemma spec_address_precedes_status_address_witness :
  hasValidVirtualServerIP SpecModel.bothAddresses = true ∧
  TargetsFromTargetAnnotation (Annotations SpecModel.bothAddresses) = [] ∧
  VirtualServerAddress (Spec SpecModel.bothAddresses) ≠ "" ∧
  VSAddress (Status SpecModel.bothAddresses) ≠ "" ∧
  resolveTargets SpecModel.bothAddresses = ["9.9.9.9"].
Proof.
  assert (Hvalid : hasValidVirtualServerIP SpecModel.bothAddresses = true)
    by reflexivity.
  assert (Hann : TargetsFromTargetAnnotation (Annotations SpecModel.bothAddresses) = [])
    by reflexivity.
  assert (Hspec : VirtualServerAddress (Spec SpecModel.bothAddresses) ≠ "")
    by discriminate.
  split_and!; [exact Hvalid | exact Hann | exact Hspec | discriminate |].
  exact (proj1 (@spec_address_precedes_status_address SpecModel.collaborators
                  (SpecModel.sourceWith "") SpecModel.bothAddresses Hvalid Hann)
           Hspec).
Defined.

Lemma valid_object_has_targets_witness :
  hasValidVirtualServerIP SpecModel.scenario1 = true ∧
  TargetsFromTargetAnnotation (Annotations SpecModel.scenario1) = [] ∧
  VirtualServerAddress (Spec SpecModel.scenario1) = "" ∧
  resolveTargets SpecModel.scenario1 ≠ [] ∧
  resolveTargets SpecModel.scenario1 = ["10.0.0.5"].
Proof.
  assert (Hvalid : hasValidVirtualServerIP SpecModel.scenario1 = true)
    by reflexivity.
  destruct (@valid_object_has_targets SpecModel.collaborators
              (SpecModel.sourceWith "") SpecModel.scenario1 Hvalid)
    as (_ & _ & Hne & Hstatus & _).
  split_and!; [exact Hvalid | reflexivity | reflexivity | exact Hne |].
  exact (Hstatus eq_refl eq_refl).
Defined.

(** The selector of [SpecModel.rejecting] is empty for the empty expression
    and refuses every object; the list still comes back whole. *)
Lemma empty_filter_is_identity_witness :
  annotationFilter (SpecModel.sourceWith "") = "" ∧
  @ParseFilter SpecModel.rejecting "" = Ok [] ∧
  @Selector_Empty SpecModel.rejecting [] = true ∧
  (∀ ls, @Selector_Matches SpecModel.rejecting [] ls = false) ∧
  @filterByAnnotations SpecModel.rejecting (SpecModel.sourceWith "")
    [SpecModel.scenario1; SpecModel.scenario4]
  = Ok [SpecModel.scenario1; SpecModel.scenario4].
Proof.
  split_and!; [reflexivity | reflexivity | reflexivity | reflexivity |].
  exact (@empty_filter_is_identity SpecModel.rejecting (SpecModel.sourceWith "") []
           [SpecModel.scenario1; SpecModel.scenario4] eq_refl eq_refl eq_refl).
Defined.

Lemma filter_is_restriction_witness :
  SpecModel.ParseFilter "environment=prod" = Ok [("environment", "prod")] ∧
  filterByAnnotations (SpecModel.sourceWith "environment=prod")
    [SpecModel.scenario4; SpecModel.scenario4prod; SpecModel.scenario1]
  = Ok [SpecModel.scenario4prod].
Proof.
  assert (Hparse : SpecModel.ParseFilter "environment=prod"
                   = Ok [("environment", "prod")]) by reflexivity.
  split; [exact Hparse|].
  exact (proj1 (@filter_is_restriction SpecModel.collaborators
                  (SpecModel.sourceWith "environment=prod")
                  [("environment", "prod")]
                  [SpecModel.scenario4; SpecModel.scenario4prod; SpecModel.scenario1]
                  Hparse (SpecModel_emptyMatchesEverything _))).
Defined.

Lemma conversion_failure_aborts_witness :
  let objs := [SpecModel.cached SpecModel.scenario1;
               SpecModel.pod;
               SpecModel.cached SpecModel.scenario3] in
  informerCache (SpecModel.worldOf objs) "default" = Ok objs ∧
  SpecModel.pod ∈ objs ∧
  isErr (convertObject SpecModel.pod) = true ∧
  ∃ err bad,
    Endpoints (SpecModel.sourceWith "") (SpecModel.worldOf objs)
    = (Err err, SpecModel.worldOf objs) ∧
    bad ∈ objs ∧ convertObject bad = Err err.
Proof.
  intros objs.
  assert (Hin : SpecModel.pod ∈ objs)
    by (apply list_elem_of_further, list_elem_of_here).
  split_and!; [reflexivity | exact Hin | reflexivity |].
  exact (@conversion_failure_aborts SpecModel.collaborators
           (SpecModel.sourceWith "") (SpecModel.worldOf objs) objs
           SpecModel.pod eq_refl Hin eq_refl).
Defined.

Lemma malformed_filter_fails_every_call_witness :
  SpecModel.ParseFilter "=prod"
  = Err (errorString "found '=', expected: identifier: =prod") ∧
  Endpoints (SpecModel.sourceWith "=prod")
    (SpecModel.worldOf [SpecModel.cached SpecModel.scenario1])
  = (Err (wrapError
            "failed to filter VirtualServers: found '=', expected: identifier: =prod"
            (errorString "found '=', expected: identifier: =prod")),
     SpecModel.worldOf [SpecModel.cached SpecModel.scenario1]).
Proof.
  assert (Hparse : SpecModel.ParseFilter "=prod"
                   = Err (errorString "found '=', expected: identifier: =prod"))
    by reflexivity.
  split; [exact Hparse|].
  destruct (@malformed_filter_fails_every_call SpecModel.collaborators
              (SpecModel.sourceWith "=prod") _
              (SpecModel.worldOf [SpecModel.cached SpecModel.scenario1]) Hparse)
    as (_ & _ & _ & Hwrapped & _).
  exact (Hwrapped [SpecModel.cached SpecModel.scenario1] [SpecModel.scenario1]
           eq_refl eq_refl).
Defined.

(** ** Where the code departs from the specification *)

(** C8 as stated fails: with the cache synced and the converter set up,
    construction with the malformed expression "=prod" returns a source and
    no error. *)
Lemma construction_accepts_malformed_filter :
  isErr (SpecModel.ParseFilter "=prod") = true ∧
  NewF5VirtualServerSource SpecModel.started "default" "=prod"
  = Ok (SpecModel.sourceWith "=prod") ∧
  isErr (NewF5VirtualServerSource SpecModel.started "default" "=prod") = false.
Proof. split_and!; reflexivity. Qed.

(** C10 as stated fails: with the malformed expression "=prod" stored and an
    object of another runtime type in the cache, the [Endpoints] call fails
    with the conversion error "could not convert", not with the wrapped
    filter error. *)
Lemma conversion_error_precedes_filter_error :
  NewF5VirtualServerSource SpecModel.started "default" "=prod"
  = Ok (SpecModel.sourceWith "=prod") ∧
  SpecModel.ParseFilter (annotationFilter (SpecModel.sourceWith "=prod"))
  = Err (errorString "found '=', expected: identifier: =prod") ∧
  Endpoints (SpecModel.sourceWith "=prod") (SpecModel.worldOf [SpecModel.pod])
  = (Err (errorString "could not convert"), SpecModel.worldOf [SpecModel.pod]) ∧
  errorString "could not convert"
  ≠ fmt_Errorf_w "failed to filter VirtualServers: "
      (errorString "found '=', expected: identifier: =prod").
Proof. split_and!; [reflexivity | reflexivity | reflexivity | discriminate]. Qed.

(** ** The further properties at concrete objects *)

Lemma Endpoints_error_sources_witness :
  (Endpoints (SpecModel.sourceWith "") (SpecModel.worldOf [SpecModel.pod])).1
  = Err (errorString "could not convert") ∧
  (Endpoints (SpecModel.sourceWith "") (SpecModel.worldOf [SpecModel.pod])).2
  = SpecModel.worldOf [SpecModel.pod].
Proof.
  assert (Hrun : (Endpoints (SpecModel.sourceWith "")
                    (SpecModel.worldOf [SpecModel.pod])).1
                 = Err (errorString "could not convert")) by reflexivity.
  split; [exact Hrun|].
  exact (proj1 (@Endpoints_error_sources SpecModel.collaborators
                  (SpecModel.sourceWith "") (SpecModel.worldOf [SpecModel.pod])
                  (errorString "could not convert") Hrun)).
Defined.

Lemma Endpoints_records_witness :
  ∃ endpoints,
    (Endpoints (SpecModel.sourceWith "")
       (SpecModel.worldOf [SpecModel.cached SpecModel.scenario2;
                           SpecModel.cached SpecModel.scenario3])).1
    = Ok endpoints ∧
    ∀ ep, ep ∈ endpoints ↔
      ∃ v built,
        v ∈ [SpecModel.scenario2; SpecModel.scenario3] ∧
        hasValidVirtualServerIP v = true ∧
        built ∈ EndpointsForHostname (Host (Spec v)) (resolveTargets v)
                  (TTLFromAnnotations (Annotations v) (resourceOf v))
                  [] "" (resourceOf v) ∧
        ep = sortTargets built.
Proof.
  exact (@Endpoints_records SpecModel.collaborators (SpecModel.sourceWith "")
           (SpecModel.worldOf [SpecModel.cached SpecModel.scenario2;
                               SpecModel.cached SpecModel.scenario3])
           [SpecModel.cached SpecModel.scenario2;
            SpecModel.cached SpecModel.scenario3]
           [SpecModel.scenario2; SpecModel.scenario3]
           [SpecModel.scenario2; SpecModel.scenario3]
           eq_refl eq_refl eq_refl).
Defined.

Lemma filterByAnnotations_idempotent_witness :
  filterByAnnotations (SpecModel.sourceWith "environment=prod")
    [SpecModel.scenario4; SpecModel.scenario4prod; SpecModel.scenario1]
  = Ok [SpecModel.scenario4prod] ∧
  filterByAnnotations (SpecModel.sourceWith "environment=prod")
    [SpecModel.scenario4prod]
  = Ok [SpecModel.scenario4prod].
Proof.
  assert (Hfilter :
    filterByAnnotations (SpecModel.sourceWith "environment=prod")
      [SpecModel.scenario4; SpecModel.scenario4prod; SpecModel.scenario1]
    = Ok [SpecModel.scenario4prod]) by reflexivity.
  split; [exact Hfilter|].
  exact (proj2 (@filterByAnnotations_idempotent SpecModel.collaborators
                  (SpecModel.sourceWith "environment=prod") _ _ Hfilter)).
Defined.

Lemma Endpoints_app_witness :
  (Endpoints (SpecModel.sourceWith "")
     (SpecModel.worldOf [SpecModel.cached SpecModel.scenario1])).1
  = Ok [recordFor ["10.0.0.5"]] ∧
  (Endpoints (SpecModel.sourceWith "")
     (SpecModel.worldOf [SpecModel.cached SpecModel.scenario3])).1
  = Ok [recordFor ["1.2.3.4"; "5.6.7.8"]] ∧
  (Endpoints (SpecModel.sourceWith "")
     (SpecModel.worldOf [SpecModel.cached SpecModel.scenario1;
                         SpecModel.cached SpecModel.scenario3])).1
  = Ok [recordFor ["10.0.0.5"]; recordFor ["1.2.3.4"; "5.6.7.8"]].
Proof.
  split_and!; [reflexivity | reflexivity |].
  exact (@Endpoints_app SpecModel.collaborators (SpecModel.sourceWith "")
           (SpecModel.worldOf [SpecModel.cached SpecModel.scenario1])
           (SpecModel.worldOf [SpecModel.cached SpecModel.scenario3])
           (SpecModel.worldOf [SpecModel.cached SpecModel.scenario1;
                               SpecModel.cached SpecModel.scenario3])
           [SpecModel.cached SpecModel.scenario1]
           [SpecModel.cached SpecModel.scenario3]
           [recordFor ["10.0.0.5"]] [recordFor ["1.2.3.4"; "5.6.7.8"]]
           eq_refl eq_refl eq_refl eq_refl eq_refl).
Defined.

Lemma Endpoints_Permutation_witness :
  [SpecModel.cached SpecModel.scenario1; SpecModel.cached SpecModel.scenario3]
  ≡ₚ [SpecModel.cached SpecModel.scenario3; SpecModel.cached SpecModel.scenario1] ∧
  ∃ endpoints',
    (Endpoints (SpecModel.sourceWith "")
       (SpecModel.worldOf [SpecModel.cached SpecModel.scenario3;
                           SpecModel.cached SpecModel.scenario1])).1
    = Ok endpoints' ∧
    [recordFor ["10.0.0.5"]; recordFor ["1.2.3.4"; "5.6.7.8"]] ≡ₚ endpoints'.
Proof.
  assert (Hperm :
    [SpecModel.cached SpecModel.scenario1; SpecModel.cached SpecModel.scenario3]
    ≡ₚ [SpecModel.cached SpecModel.scenario3; SpecModel.cached SpecModel.scenario1])
    by apply perm_swap.
  split; [exact Hperm|].
  exact (@Endpoints_Permutation SpecModel.collaborators (SpecModel.sourceWith "")
           (SpecModel.worldOf [SpecModel.cached SpecModel.scenario1;
                               SpecModel.cached SpecModel.scenario3])
           (SpecModel.worldOf [SpecModel.cached SpecModel.scenario3;
                               SpecModel.cached SpecModel.scenario1])
           _ _ [recordFor ["10.0.0.5"]; recordFor ["1.2.3.4"; "5.6.7.8"]]
           eq_refl eq_refl Hperm eq_refl).
Defined.

Lemma resourceOf_identifies_witness :
  containsByte "/" (Namespace SpecModel.scenario1) = false ∧
  containsByte "/" (Namespace SpecModel.scenario3) = false ∧
  resourceOf SpecModel.scenario1 = resourceOf SpecModel.scenario3 ∧
  Namespace SpecModel.scenario1 = Namespace SpecModel.scenario3 ∧
  Name SpecModel.scenario1 = Name SpecModel.scenario3.
Proof.
  split_and!; [reflexivity | reflexivity | reflexivity |..];
    apply (resourceOf_identifies SpecModel.scenario1 SpecModel.scenario3
             eq_refl eq_refl eq_refl).
Defined.

(** Without the condition on the namespaces the tag does not identify the
    object. *)
Example resourceOf_ambiguous :
  resourceOf {| Namespace := "a/b"; Name := "c"; Annotations := ∅;
                Spec := {| Host := ""; VirtualServerAddress := "" |};
                Status := {| VSAddress := "" |} |}
  = resourceOf {| Namespace := "a"; Name := "b/c"; Annotations := ∅;
                  Spec := {| Host := ""; VirtualServerAddress := "" |};
                  Status := {| VSAddress := "" |} |}.
Proof. reflexivity. Qed.
